(** * Automatic inventory replenishment: a shallow embedding and its properties

    The development follows the five Python modules of the repository:
    [config.py], [data_processing.py], [inventory_analysis.py],
    [api_handler.py] and [main.py].

    Conventions of the embedding.
    - Quantities (Python floats) are exact rationals [Q]; rounding, infinities
      and NaN are outside the model.  A pandas missing value (NaN produced by
      [Series.map]) is [None] in an [option].
    - A [csv.DictReader] row is a finite map from column names to an optional
      text ([None] is Python's [None], the value of a column missing from a
      short line).
    - A DataFrame is the list of its rows, in order.
    - Python exceptions are values of [exn]; a computation that may raise
      returns a [result].  Logging and calls to the outside world are recorded
      as a list of [event]s, oldest first.
    - Builtins and third-party functions the repository calls but does not
      define ([float] on text, [pd.to_datetime], [round], the text of a
      formatted float, Prophet) are variables of the sections below. *)

From Stdlib Require Import QArith Qminmax Lqa Lia ZArith List Permutation Sorted.
From Stdlib Require Import Ascii String.
From stdpp Require Import base gmap strings list pretty.

Local Open Scope string_scope.
Local Open Scope list_scope.

(** ** Exceptions and results *)

Inductive exn : Type :=
| KeyError (key : string)
| ValueError (msg : string)
| TypeError (msg : string)
| IndexError (msg : string)
| OtherError (msg : string).

Inductive result (A : Type) : Type :=
| Ok (a : A)
| Raise (e : exn).
Arguments Ok {A} a.
Arguments Raise {A} e.

Definition is_ok {A} (r : result A) : bool :=
  match r with Ok _ => true | Raise _ => false end.

Definition rbind {A B} (r : result A) (k : A -> result B) : result B :=
  match r with Ok a => k a | Raise e => Raise e end.

Notation "'try!' x ':=' r 'in' k" := (rbind r (fun x => k))
  (at level 10, x pattern, r at level 100, k at level 200).

(** ** Rows *)

(** One row as [csv.DictReader] yields it; a [cell] is the value of a column. *)
Abbreviation cell := (option string).
Abbreviation row := (gmap string cell).

(** [row[key]] *)
Definition getitem (r : row) (key : string) : result (option string) :=
  match r !! key with
  | Some v => Ok v
  | None => Raise (KeyError key)
  end.

(** ** data_processing.py : load_and_validate_csv *)

Definition required_keys : list string :=
  ["Company"; "Warehouse"; "Date"; "SKU"; "Sales"; "SOH"; "Open_PO"; "Open_SO";
   "Promotion"; "Festival"; "Min_Days"; "Max_Days"].

(** The six columns on which the loop body calls [float], in that order. *)
Definition numeric_keys : list string :=
  ["Sales"; "SOH"; "Open_PO"; "Open_SO"; "Min_Days"; "Max_Days"].

Record validated : Type := mkValidated {
  valid_rows : list row;
  malformed_rows : list row;
  warnings : list (nat * row * exn)
}.

Section Validation.

(** Python's [float] on a text: [None] when it raises [ValueError]. *)
Variable float_of_str : string -> option Q.

(** [float(v)] for a cell [v]. *)
Definition py_float (v : option string) : result Q :=
  match v with
  | None => Raise (TypeError "float() argument must be a string or a real number")
  | Some s =>
      match float_of_str s with
      | Some q => Ok q
      | None => Raise (ValueError ("could not convert string to float: " ++ s))
      end
  end.

(** [for key in required_keys: if row[key] == '' or row[key] is None: raise ...] *)
Fixpoint check_required (keys : list string) (r : row) : result unit :=
  match keys with
  | [] => Ok tt
  | key :: keys' =>
      try! v := getitem r key in
      match v with
      | None => Raise (ValueError ("Missing value for " ++ key))
      | Some s =>
          if String.eqb s "" then Raise (ValueError ("Missing value for " ++ key))
          else check_required keys' r
      end
  end.

(** [float(row['Sales']); float(row['SOH']); ...] : the values are discarded. *)
Fixpoint check_numeric (keys : list string) (r : row) : result unit :=
  match keys with
  | [] => Ok tt
  | key :: keys' =>
      try! v := getitem r key in
      try! _ := py_float v in
      check_numeric keys' r
  end.

(** The body of the [try] of the loop, up to [valid_rows.append(row)]. *)
Definition validate_row (r : row) : result unit :=
  try! _ := check_required required_keys r in
  check_numeric numeric_keys r.

(** One iteration of [for i, row in enumerate(reader, 1)]. *)
Definition validate_step (acc : validated) (i : nat) (r : row) : validated :=
  match validate_row r with
  | Ok _ =>
      mkValidated (valid_rows acc ++ [r]) (malformed_rows acc) (warnings acc)
  | Raise e =>
      mkValidated (valid_rows acc) (malformed_rows acc ++ [r])
                  (warnings acc ++ [(i, r, e)])
  end.

Fixpoint validate_loop (acc : validated) (i : nat) (rows : list row) : validated :=
  match rows with
  | [] => acc
  | r :: rows' => validate_loop (validate_step acc i r) (S i) rows'
  end.

(** [load_and_validate_csv], from the rows the reader yields.  The returned
    DataFrame is [valid_rows]; [malformed_rows] and [warnings] are what the
    function logs. *)
Definition load_and_validate_csv (rows : list row) : validated :=
  validate_loop (mkValidated [] [] []) 1 rows.

(** The count line logged after the loop: total, valid, skipped. *)
Definition logged_counts (v : validated) : nat * nat * nat :=
  (length (valid_rows v) + length (malformed_rows v),
   length (valid_rows v), length (malformed_rows v))%nat.

Definition row_ok (r : row) : bool := is_ok (validate_row r).

(** *** The specification's reading of "malformed" *)

(** A required field is empty or absent. *)
Definition field_missing (r : row) (key : string) : Prop :=
  r !! key = None \/ r !! key = Some None \/ r !! key = Some (Some "").

(** A numeric field holds a text that fails numeric parsing. *)
Definition field_not_numeric (r : row) (key : string) : Prop :=
  exists s, r !! key = Some (Some s) /\ float_of_str s = None.

Definition malformed (r : row) : Prop :=
  (exists key, In key required_keys /\ field_missing r key) \/
  (exists key, In key numeric_keys /\ field_not_numeric r key).

End Validation.

(** ** Events and the run monad *)

(** One row of the frame [preprocess_data] returns: columns ds, y, promotion,
    festival.  [None] is a missing value (NaT, NaN). *)
Record series_row : Type := mkSeriesRow {
  ds : option Z;
  y : Q;
  promotion : option Z;
  festival : option Z
}.

(** The payload [main] builds for an order. *)
Record payload : Type := mkPayload {
  p_sku : cell;
  p_quantity : Q;
  p_company : cell;
  p_warehouse : cell
}.

(** What the per-SKU log line of [main] reports. *)
Record decision : Type := mkDecision {
  d_sku : cell;
  d_forecast : Q;
  d_soh : Q;
  d_open_po : Q;
  d_open_so : Q;
  d_min_days : Q;
  d_max_days : Q;
  d_min_inv : Q;
  d_max_inv : Q;
  d_adjusted_soh : Q;
  d_procurement_qty : Q;
  d_reason : string
}.

(** One dictionary appended to [summary_rows]. *)
Record summary_row : Type := mkSummary {
  s_sku : cell;
  s_forecast : Q;
  s_soh : Q;
  s_adjusted_soh : Q;
  s_open_po : Q;
  s_open_so : Q;
  s_procurement_qty : Q
}.

(** Log lines and calls to the outside, in the order the program makes them. *)
Inductive event : Type :=
| EvMalformedRow (i : nat) (r : row) (e : exn)      (* data_processing: warning *)
| EvRowCounts (total valid skipped : nat)           (* data_processing: info *)
| EvNoValidData                                     (* main: error *)
| EvProcessingSkus (skus : list cell)               (* main: info *)
| EvNoDataForSku (sku : cell)                       (* main: warning *)
| EvForecast (sku : cell) (series : list series_row) (interval : Z)
                                                    (* main: call of forecast_sales *)
| EvMinMax (min_inv max_inv : Q)                    (* inventory_analysis: info *)
| EvAdjustedSoh (adjusted : Q)                      (* inventory_analysis: info *)
| EvDecision (d : decision)                         (* main: info *)
| EvGetToken                                        (* api_handler: info *)
| EvAttempt (attempt : Z) (api_url token : string) (p : payload)
                                                    (* api_handler: info *)
| EvOrderPlaced                                     (* api_handler: info *)
| EvApiFailed (e : exn)                             (* api_handler: error *)
| EvSleep (seconds : Z)                             (* api_handler: time.sleep *)
| EvAllRetriesFailed                                (* api_handler: error *)
| EvNoProcurement (sku : cell).                     (* main: info *)

(** A computation that logs, calls out and may raise: the events made so far
    survive the exception. *)
Definition run (A : Type) : Type := (list event * result A)%type.

Definition ret {A} (a : A) : run A := ([], Ok a).

Definition bind {A B} (m : run A) (k : A -> run B) : run B :=
  match m with
  | (t, Ok a) => let '(t', r) := k a in (t ++ t', r)
  | (t, Raise e) => (t, Raise e)
  end.

Definition emit (e : event) : run unit := ([e], Ok tt).

Definition lift {A} (r : result A) : run A := ([], r).

Notation "'let!' x ':=' m 'in' k" := (bind m (fun x => k))
  (at level 10, x pattern, m at level 100, k at level 200).
Notation "m ';;' k" := (bind m (fun _ => k))
  (at level 100, k at level 200, right associativity).

Definition trace {A} (m : run A) : list event := fst m.
Definition outcome {A} (m : run A) : result A := snd m.

(** ** Frames *)

(** The value of column [key] in row [r] of a frame: missing when the row's
    dictionary had no such key. *)
Definition col (r : row) (key : string) : cell :=
  match r !! key with Some v => v | None => None end.

Definition cell_eqb (a b : cell) : bool := bool_decide (a = b).

(** [Series.unique()]: the distinct values in order of first appearance. *)
Fixpoint unique (l : list cell) : list cell :=
  match l with
  | [] => []
  | x :: l' => x :: List.filter (fun v => negb (cell_eqb v x)) (unique l')
  end.

(** [df[df[key] == v]] *)
Definition select (df : list row) (key : string) (v : cell) : list row :=
  List.filter (fun r => cell_eqb (col r key) v) df.

(** [df.iloc[-1]] *)
Definition iloc_last (df : list row) : result row :=
  match List.last (map Some df) None with
  | Some r => Ok r
  | None => Raise (IndexError "single positional indexer is out-of-bounds")
  end.

Fixpoint mapM {A B} (f : A -> result B) (l : list A) : result (list B) :=
  match l with
  | [] => Ok []
  | a :: l' => try! b := f a in try! bs := mapM f l' in Ok (b :: bs)
  end.

(** ** data_processing.py : preprocess_data *)

(** The dictionary given to [Series.map]. *)
Definition flag_codes : gmap string Z := {[ "YES" := 1%Z; "NO" := 0%Z ]}.

(** [Series.map(dict)] on one value: a value that is no key of the
    dictionary becomes missing. *)
Definition map_flag (v : cell) : option Z :=
  match v with
  | Some s => flag_codes !! s
  | None => None
  end.

Section Preprocess.

Variable float_of_str : string -> option Q.
(** [pd.to_datetime] on a text: [None] when it raises. *)
Variable datetime_of_str : string -> option Z.

Definition to_datetime (v : cell) : result (option Z) :=
  match v with
  | None => Ok None
  | Some s =>
      match datetime_of_str s with
      | Some t => Ok (Some t)
      | None => Raise (ValueError ("Unknown datetime string format: " ++ s))
      end
  end.

(** [pd.to_numeric] of a cell of a frame whose numeric columns hold the
    numbers read by [float]. *)
Definition to_numeric (v : cell) : result Q := py_float float_of_str v.

Definition preprocess_data (df : list row) : result (list series_row) :=
  try! ds_col := mapM (fun r => to_datetime (col r "Date")) df in
  try! y_col := mapM (fun r => to_numeric (col r "Sales")) df in
  let promotion_col := map (fun r => map_flag (col r "Promotion")) df in
  let festival_col := map (fun r => map_flag (col r "Festival")) df in
  Ok (zip_with (fun dy pf => mkSeriesRow (fst dy) (snd dy) (fst pf) (snd pf))
               (zip ds_col y_col) (zip promotion_col festival_col)).

End Preprocess.

(** ** inventory_analysis.py *)

(** Python's [max(a, b)]: the first argument unless the second is greater. *)
Definition py_max (a b : Q) : Q := if Qlt_le_dec a b then b else a.

Definition compute_adjusted_soh (soh open_po open_so : Q) : Q :=
  (soh + open_po - open_so)%Q.

Definition compute_min_max_inventory (forecast_qty min_days max_days : Q) : Q * Q :=
  let min_inv := (forecast_qty * min_days)%Q in
  let max_inv := (forecast_qty * max_days)%Q in
  (min_inv, max_inv).

Definition compute_procurement_quantity (adjusted_soh max_procurement_level : Q) : Q :=
  py_max 0 (max_procurement_level - adjusted_soh)%Q.

(** ** api_handler.py *)

Definition get_access_token (client_id client_secret : string) : run string :=
  emit EvGetToken ;; ret "DUMMY_TOKEN".

(** [range(1, retries + 1)] *)
Definition attempts_range (retries : Z) : list Z :=
  map Z.of_nat (seq 1 (Z.to_nat retries)).

Section Submit.

(** The request an attempt makes between its two log lines: [Ok] when it
    returns, [Raise] when it raises.  The repository's function makes none
    ("Simulate success"), which is the request that always returns. *)
Variable request : Z -> string -> string -> payload -> result unit.

Fixpoint attempt_loop (attempts : list Z) (api_url token : string) (p : payload)
  : run bool :=
  match attempts with
  | [] => emit EvAllRetriesFailed ;; ret false
  | attempt :: rest =>
      emit (EvAttempt attempt api_url token p) ;;
      match request attempt api_url token p with
      | Ok _ => emit EvOrderPlaced ;; ret true
      | Raise e =>
          emit (EvApiFailed e) ;;
          emit (EvSleep (5 * attempt)%Z) ;;
          attempt_loop rest api_url token p
      end
  end.

Definition place_purchase_order_with (api_url token : string) (p : payload)
    (retries : Z) : run bool :=
  attempt_loop (attempts_range retries) api_url token p.

End Submit.

(** The request of the repository's [place_purchase_order]: nothing is sent
    and nothing can raise. *)
Definition simulated_request (attempt : Z) (api_url token : string) (p : payload)
  : result unit := Ok tt.

Definition place_purchase_order (api_url token : string) (p : payload) (retries : Z)
  : run bool :=
  place_purchase_order_with simulated_request api_url token p retries.

Definition default_retries : Z := 3.

(** ** config.py *)

Module config.
Definition default_call_api : bool := false.
Definition default_forecast_interval : Z := 1.
Definition min_days : Q := 1.
Definition max_days : Q := 3.
Definition client_id : string := "YOUR_CLIENT_ID".
Definition client_secret : string := "YOUR_CLIENT_SECRET".
End config.

(** ** main.py *)

Section Main.

Variable float_of_str : string -> option Q.
Variable datetime_of_str : string -> option Z.
(** [forecast_sales] of data_processing.py: Prophet fitted on the prepared
    frame and asked for [interval] days; it returns the summed prediction
    or raises. *)
Variable forecast_sales : list series_row -> Z -> result Q.
(** The text an f-string gives a float. *)
Variable format_float : Q -> string.
(** [round(x, 2)] *)
Variable round2 : Q -> Q.

(** The values [main] fixes before the run. *)
Definition forecast_interval : Z := 1.
Definition call_api : bool := true.
Definition api_url : string := "https://dummy.api/purchase_order".

(** Lines 73-79: the quantity and the reason. *)
Definition procurement_decision (adjusted_soh min_inv max_inv : Q) : Q * string :=
  if Qlt_le_dec adjusted_soh min_inv then
    (py_max 0 (max_inv - adjusted_soh)%Q,
     ("Adjusted SOH " ++ format_float adjusted_soh ++
      " < Min Inventory " ++ format_float min_inv)%string)
  else
    (0%Q,
     ("Adjusted SOH " ++ format_float adjusted_soh ++
      " >= Min Inventory " ++ format_float min_inv)%string).

(** [float(last[key])].  Lines 46-47 of [main] turn the six numeric columns
    of the frame into numbers; every row of the frame passed [float] on these
    columns during validation, and the model keeps the text of the cell and
    reads its number here, where [main] uses it. *)
Definition float_at (last : row) (key : string) : run Q :=
  lift (py_float float_of_str (col last key)).

(** Lines 94-104. *)
Definition submit_if_needed (sku : cell) (last : row) (procurement_qty : Q)
  : run unit :=
  if call_api && (if Qlt_le_dec 0 procurement_qty then true else false) then
    let! token := get_access_token "dummy_id" "dummy_secret" in
    let p := mkPayload sku procurement_qty (col last "Company") (col last "Warehouse") in
    let! _ := place_purchase_order api_url token p default_retries in
    ret tt
  else
    emit (EvNoProcurement sku).

(** The body of [for sku in sku_list]: [None] when the SKU is skipped by
    [continue], the dictionary appended to [summary_rows] otherwise. *)
Definition process_sku (df : list row) (sku : cell) : run (option summary_row) :=
  let sku_df := select df "SKU" sku in
  match sku_df with
  | [] => emit (EvNoDataForSku sku) ;; ret None
  | _ :: _ =>
      let! processed_df := lift (preprocess_data float_of_str datetime_of_str sku_df) in
      emit (EvForecast sku processed_df forecast_interval) ;;
      let! forecast_qty := lift (forecast_sales processed_df forecast_interval) in
      let! last := lift (iloc_last sku_df) in
      let! soh := float_at last "SOH" in
      let! open_po := float_at last "Open_PO" in
      let! open_so := float_at last "Open_SO" in
      let! min_days := float_at last "Min_Days" in
      let! max_days := float_at last "Max_Days" in
      let '(min_inv, max_inv) :=
        compute_min_max_inventory forecast_qty min_days max_days in
      emit (EvMinMax min_inv max_inv) ;;
      let adjusted_soh := compute_adjusted_soh soh open_po open_so in
      emit (EvAdjustedSoh adjusted_soh) ;;
      let '(procurement_qty, procurement_reason) :=
        procurement_decision adjusted_soh min_inv max_inv in
      let summary :=
        mkSummary sku (round2 forecast_qty) soh (round2 adjusted_soh)
                  open_po open_so (round2 procurement_qty) in
      emit (EvDecision (mkDecision sku forecast_qty soh open_po open_so
                          min_days max_days min_inv max_inv adjusted_soh
                          procurement_qty procurement_reason)) ;;
      submit_if_needed sku last procurement_qty ;;
      ret (Some summary)
  end.

(** [for sku in sku_list: ...], with [summary_rows] threaded through. *)
Fixpoint sku_loop (df : list row) (skus : list cell) (summary_rows : list summary_row)
  : run (list summary_row) :=
  match skus with
  | [] => ret summary_rows
  | sku :: rest =>
      let! s := process_sku df sku in
      sku_loop df rest
        (match s with Some r => summary_rows ++ [r] | None => summary_rows end)
  end.

(** What [load_and_validate_csv] logs. *)
Definition validation_log (v : validated) : list event :=
  map (fun w => EvMalformedRow (fst (fst w)) (snd (fst w)) (snd w)) (warnings v)
  ++ [EvRowCounts (fst (fst (logged_counts v))) (snd (fst (logged_counts v)))
                  (snd (logged_counts v))].

(** [main], from the rows read from the file to the list [summary_rows]
    handed to the table printer; [None] is the early [return]. *)
Definition main (rows : list row) : run (option (list summary_row)) :=
  let v := load_and_validate_csv float_of_str rows in
  (validation_log v, Ok tt) ;;
  let df := valid_rows v in
  match df with
  | [] => emit EvNoValidData ;; ret None
  | _ :: _ =>
      let sku_list := unique (map (fun r => col r "SKU") df) in
      emit (EvProcessingSkus sku_list) ;;
      let! summary_rows := sku_loop df sku_list [] in
      ret (Some summary_rows)
  end.

End Main.

(** ** Concrete instances of the builtins, for evaluating the model *)

Definition digit_of_ascii (c : ascii) : option Z :=
  let n := Z.of_nat (nat_of_ascii c) in
  if ((48 <=? n) && (n <=? 57))%Z then Some (n - 48)%Z else None.

Fixpoint digits_value (s : string) (acc : Z) : option Z :=
  match s with
  | EmptyString => Some acc
  | String c s' =>
      match digit_of_ascii c with
      | Some d => digits_value s' (10 * acc + d)%Z
      | None => None
      end
  end.

(** [float] on the texts made of decimal digits, with an optional minus sign. *)
Definition decimal_float (s : string) : option Q :=
  match s with
  | EmptyString => None
  | String "-" EmptyString => None
  | String "-" s' => option_map (fun z => inject_Z (- z)) (digits_value s' 0)
  | _ => option_map inject_Z (digits_value s 0)
  end.

Fixpoint drop_dashes (s : string) : string :=
  match s with
  | EmptyString => EmptyString
  | String "-" s' => drop_dashes s'
  | String c s' => String c (drop_dashes s')
  end.

(** [pd.to_datetime] on ISO dates YYYY-MM-DD, as the number YYYYMMDD. *)
Definition iso_datetime (s : string) : option Z :=
  match drop_dashes s with
  | EmptyString => None
  | s' => digits_value s' 0
  end.

(** A float formatter: integers as Python prints them, other rationals as a
    fraction. *)
Definition plain_format (q : Q) : string :=
  match Qden q with
  | xH => (pretty (Qnum q) ++ ".0")%string
  | d => (pretty (Qnum q) ++ "/" ++ pretty d)%string
  end.

Definition no_rounding (q : Q) : Q := q.

(** A row with the twelve required columns. *)
Definition mk_row (company warehouse date sku sales soh open_po open_so
                   promo fest min_d max_d : string) : row :=
  list_to_map
    [("Company", Some company); ("Warehouse", Some warehouse); ("Date", Some date);
     ("SKU", Some sku); ("Sales", Some sales); ("SOH", Some soh);
     ("Open_PO", Some open_po); ("Open_SO", Some open_so);
     ("Promotion", Some promo); ("Festival", Some fest);
     ("Min_Days", Some min_d); ("Max_Days", Some max_d)].

Definition constant_forecast (q : Q) (series : list series_row) (interval : Z)
  : result Q := Ok q.

(** A forecaster that, like Prophet, refuses a frame of fewer than two rows. *)
Definition two_row_forecast (q : Q) (series : list series_row) (interval : Z)
  : result Q :=
  match series with
  | _ :: _ :: _ => Ok q
  | _ => Raise (ValueError "Dataframe has less than 2 non-NaN rows.")
  end.

(** ** The specification's rules, stated for comparison with the code *)

(** "if adjustedSoh < minInventory, procure max(0, maxInventory - adjustedSoh);
    otherwise procure 0" *)
Definition spec_procurement_qty (adjustedSoh minInventory maxInventory : Q) : Q :=
  if Qlt_le_dec adjustedSoh minInventory
  then Qmax 0 (maxInventory - adjustedSoh)
  else 0%Q.

(** The branch taken and the two compared values. *)
Definition spec_reason (fmt : Q -> string) (adjustedSoh minInventory : Q) : string :=
  ("Adjusted SOH " ++ fmt adjustedSoh ++
   (if Qlt_le_dec adjustedSoh minInventory then " < " else " >= ") ++
   "Min Inventory " ++ fmt minInventory)%string.

Section DateOrder.

Variable datetime_of_str : string -> option Z.







End DateOrder.

(** Events that belong to forecasting, to a procurement decision or to an
    order submission. *)
Definition is_processing_event (e : event) : bool :=
  match e with
  | EvForecast _ _ _ | EvMinMax _ _ | EvAdjustedSoh _ | EvDecision _
  | EvGetToken | EvAttempt _ _ _ _ | EvOrderPlaced | EvApiFailed _
  | EvSleep _ | EvAllRetriesFailed | EvNoProcurement _ => true
  | _ => false
  end.

(** The events of one SKU's iteration of the loop of [main]. *)
Definition event_sku (e : event) : option cell :=
  match e with
  | EvNoDataForSku sku | EvForecast sku _ _ | EvNoProcurement sku => Some sku
  | EvDecision d => Some (d_sku d)
  | EvAttempt _ _ _ p => Some (p_sku p)
  | _ => None
  end.

(** The attempts a trace makes and the waits it takes, in order. *)
Definition attempts_of (t : list event) : list Z :=
  omap (fun e => match e with EvAttempt a _ _ _ => Some a | _ => None end) t.





Definition sample_payload : payload :=
  mkPayload (Some "A1") 240 (Some "ACME") (Some "W1").

(** *** Sample batches *)

(** The specification's scenario: forecast 100, Min_Days 1, Max_Days 3,
    SOH 50, Open_PO 20, Open_SO 10. *)
Definition row_a1 : row :=
  mk_row "ACME" "W1" "2024-01-01" "A1" "100" "50" "20" "10" "NO" "NO" "1" "3".

Definition row_b2 : row :=
  mk_row "ACME" "W1" "2024-01-01" "B2" "80" "140" "20" "10" "YES" "NO" "1" "3".

(** A row whose SOH is empty. *)
Definition row_missing_soh : row :=
  mk_row "ACME" "W1" "2024-01-01" "C3" "7" "" "0" "0" "NO" "NO" "1" "3".

(** A row whose Promotion flag is neither YES nor NO. *)
Definition row_maybe : row :=
  mk_row "ACME" "W1" "2024-01-01" "A1" "100" "50" "20" "10" "MAYBE" "NO" "1" "3".

Definition mixed_batch : list row := [row_a1; row_missing_soh; row_b2].


Definition row_jan1 : row :=
  mk_row "ACME" "W1" "2024-01-01" "A1" "5" "99" "0" "0" "NO" "NO" "1" "3".


(** SKU A1 with a single row, then SKU B2 with two. *)
Definition row_b2_jan2 : row :=
  mk_row "ACME" "W1" "2024-01-02" "B2" "80" "140" "20" "10" "NO" "NO" "1" "3".

Definition short_history_batch : list row := [row_a1; row_b2; row_b2_jan2].

(** SKU B2 with two rows, then SKU A1 with a single row, then SKU C3. *)
Definition row_c3 : row :=
  mk_row "ACME" "W1" "2024-01-01" "C3" "7" "1" "0" "0" "NO" "NO" "1" "3".

Definition row_c3_jan2 : row :=
  mk_row "ACME" "W1" "2024-01-02" "C3" "7" "1" "0" "0" "NO" "NO" "1" "3".

Definition late_failure_batch : list row :=
  [row_b2; row_b2_jan2; row_a1; row_c3; row_c3_jan2].

(** The decisions a trace logs, in order. *)
Definition decisions_of (t : list event) : list decision :=
  omap (fun e => match e with EvDecision d => Some d | _ => None end) t.

(** The decision of the specification's scenario for SKU A1. *)
Definition decision_a1 : decision :=
  mkDecision (Some "A1") 100 50 20 10 1 3 (100 * 1) (100 * 3) (50 + 20 - 10)
             (300 - 60) "Adjusted SOH 60.0 < Min Inventory 100.0".

(** *** Further vocabulary for the properties of the run *)

(** The dictionary [main] appends to [summary_rows] for a logged decision. *)
Definition summary_of_decision (round2 : Q -> Q) (d : decision) : summary_row :=
  mkSummary (d_sku d) (round2 (d_forecast d)) (d_soh d) (round2 (d_adjusted_soh d))
            (d_open_po d) (d_open_so d) (round2 (d_procurement_qty d)).

(** The log lines of a skipped SKU and of a failed request, and the wait. *)
Definition is_failure_event (e : event) : bool :=
  match e with
  | EvNoDataForSku _ | EvApiFailed _ | EvSleep _ | EvAllRetriesFailed => true
  | _ => false
  end.


(** The payloads of the orders a trace attempts, in order. *)
Definition payloads_of (t : list event) : list payload :=
  omap (fun e => match e with EvAttempt _ _ _ p => Some p | _ => None end) t.

(** The four columns [preprocess_data] reads. *)
Definition series_keys : list string := ["Date"; "Sales"; "Promotion"; "Festival"].

(** [procurement_qty > 0] for a logged decision. *)
Definition positive_quantity (d : decision) : bool :=
  if Qlt_le_dec 0 (d_procurement_qty d) then true else false.

(** The order [main] builds from a decision and the SKU's last row. *)
Definition payload_of_decision (d : decision) (last : row) : payload :=
  mkPayload (d_sku d) (d_procurement_qty d) (col last "Company") (col last "Warehouse").

(** The columns [main] reads from the last row with [float]. *)
Definition snapshot_keys : list string :=
  ["SOH"; "Open_PO"; "Open_SO"; "Min_Days"; "Max_Days"].


(** What identifies an order, and the order a decision calls for. *)
Definition order_key (p : payload) : cell * Q := (p_sku p, p_quantity p).
Definition decision_key (d : decision) : cell * Q := (d_sku d, d_procurement_qty d).

(** * Properties *)

(** ** Inventory policy and procurement decision *)

Lemma py_max_Qmax (x : Q) : py_max 0 x = Qmax 0 x.
Proof.
  unfold py_max, Qmax, GenericMinMax.gmax.
  destruct (Qlt_le_dec 0 x) as [Hlt | Hle].
  - now rewrite (proj1 (Qlt_alt 0 x) Hlt).
  - destruct (0 ?= x)%Q eqn:Hcmp; try reflexivity.
    apply Qlt_alt in Hcmp. lra.
Qed.



(** The inline quantity of [main] is the one [compute_procurement_quantity]
    of inventory_analysis.py returns. *)
Lemma inline_quantity_is_compute_procurement_quantity fmt (a mn mx : Q) :
  (a < mn)%Q ->
  fst (procurement_decision fmt a mn mx) = compute_procurement_quantity a mx.
Proof.
  intros Hlt. unfold procurement_decision, compute_procurement_quantity.
  destruct (Qlt_le_dec a mn); [reflexivity | lra].
Qed.

(** The decision of [main] follows the specification's rule, quantity and
    reason. *)
Lemma procurement_decision_spec (fmt : Q -> string) (a mn mx : Q) :
  procurement_decision fmt a mn mx
  = (spec_procurement_qty a mn mx, spec_reason fmt a mn).
Proof.
  unfold procurement_decision, spec_procurement_qty, spec_reason.
  destruct (Qlt_le_dec a mn).
  - now rewrite py_max_Qmax.
  - reflexivity.
Qed.







(** ** The run monad *)

Lemma bind_lift_ok {A B} (a : A) (k : A -> run B) : bind (lift (Ok a)) k = k a.
Proof. unfold bind, lift. now destruct (k a). Qed.

Lemma bind_lift_raise {A B} (e : exn) (k : A -> run B) :
  bind (lift (Raise e)) k = ([], Raise e).
Proof. reflexivity. Qed.

Lemma bind_emit {B} (e : event) (k : unit -> run B) :
  bind (emit e) k = (e :: trace (k tt), outcome (k tt)).
Proof. unfold bind, emit, trace, outcome. now destruct (k tt). Qed.

Lemma bind_ret {A B} (a : A) (k : A -> run B) : bind (ret a) k = k a.
Proof. unfold bind, ret. now destruct (k a). Qed.

Lemma bind_pair_ok {A B} (t : list event) (a : A) (k : A -> run B) :
  bind (t, Ok a) k = (t ++ trace (k a), outcome (k a)).
Proof. unfold bind, trace, outcome. now destruct (k a). Qed.

Lemma bind_assoc {A B C} (m : run A) (k : A -> run B) (h : B -> run C) :
  bind (bind m k) h = bind m (fun a => bind (k a) h).
Proof.
  destruct m as [t [a | e]]; [| reflexivity].
  unfold bind at 2 3. destruct (k a) as [t1 [b | e1]]; simpl.
  - destruct (h b) as [t2 r2]. now rewrite app_assoc.
  - reflexivity.
Qed.

Lemma run_eta {A} (m : run A) : m = (trace m, outcome m).
Proof. now destruct m. Qed.

Ltac run_step :=
  first [ rewrite bind_lift_ok | rewrite bind_lift_raise | rewrite bind_emit
        | rewrite bind_ret ].

(** ** The order submitter *)

Lemma attempts_range_pos (retries : Z) :
  (1 <= retries)%Z ->
  attempts_range retries = 1%Z :: map Z.of_nat (seq 2 (Z.to_nat retries - 1)).
Proof.
  intros H. unfold attempts_range.
  destruct (Z.to_nat retries) as [| n] eqn:Hn; [lia |].
  simpl. now rewrite Nat.sub_0_r.
Qed.

(** C10. For every call of [place_purchase_order] with retries >= 1, whatever
    the URL, token and payload, the function returns True in the first
    iteration: its trace is the attempt line and the success line, so no
    failure is logged, nothing sleeps and the final "all retries failed"
    return is not reached. *)
Theorem C10_place_purchase_order_always_succeeds
    (api_url token : string) (p : payload) (retries : Z) :
  (1 <= retries)%Z ->
  place_purchase_order api_url token p retries
  = ([EvAttempt 1 api_url token p; EvOrderPlaced], Ok true).
Proof.
  intros H. unfold place_purchase_order, place_purchase_order_with.
  rewrite (attempts_range_pos retries H). reflexivity.
Qed.

Lemma C10_place_purchase_order_always_succeeds_witness :
  (1 <= 3)%Z /\
  place_purchase_order "https://dummy.api/purchase_order" "DUMMY_TOKEN"
    (mkPayload (Some "A1") 240 (Some "ACME") (Some "W1")) 3
  = ([EvAttempt 1 "https://dummy.api/purchase_order" "DUMMY_TOKEN"
        (mkPayload (Some "A1") 240 (Some "ACME") (Some "W1")); EvOrderPlaced],
     Ok true).
Proof.
  split; [lia |].
  apply C10_place_purchase_order_always_succeeds. lia.
Defined.

Section SubmitProperties.

Variable request : Z -> string -> string -> payload -> result unit.
Variables (api_url token : string) (p : payload).



End SubmitProperties.





Lemma attempts_of_app (t1 t2 : list event) :
  attempts_of (t1 ++ t2) = attempts_of t1 ++ attempts_of t2.
Proof. unfold attempts_of. apply omap_app. Qed.





(** ** The row validator *)

Section ValidationProperties.

Variable float_of_str : string -> option Q.

Lemma check_required_ok (keys : list string) (r : row) :
  is_ok (check_required keys r) = true <->
  (forall key, In key keys -> ~ field_missing r key).
Proof.
  induction keys as [| k keys IH]; simpl.
  - split; [intros _ key [] | reflexivity].
  - unfold getitem. destruct (r !! k) as [[s |] |] eqn:Hk; simpl.
    + destruct (String.eqb_spec s "") as [-> | Hne].
      * split; [discriminate |]. intros H. exfalso.
        apply (H k); [now left |]. right. now right.
      * rewrite IH. split.
        -- intros H key [<- | Hin]; [| now apply H].
           intros [Hm | [Hm | Hm]]; congruence.
        -- intros H key Hin. apply H. now right.
    + split; [discriminate |]. intros H. exfalso.
      apply (H k); [now left |]. right. now left.
    + split; [discriminate |]. intros H. exfalso.
      apply (H k); [now left |]. now left.
Qed.

Lemma check_numeric_ok (keys : list string) (r : row) :
  is_ok (check_numeric float_of_str keys r) = true <->
  (forall key, In key keys ->
     exists s q, r !! key = Some (Some s) /\ float_of_str s = Some q).
Proof.
  induction keys as [| k keys IH]; simpl.
  - split; [intros _ key [] | reflexivity].
  - unfold getitem. destruct (r !! k) as [[s |] |] eqn:Hk; simpl.
    + destruct (float_of_str s) as [q |] eqn:Hs; simpl.
      * rewrite IH. split.
        -- intros H key [<- | Hin]; [now exists s, q | now apply H].
        -- intros H key Hin. apply H. now right.
      * split; [discriminate |]. intros H.
        destruct (H k) as (s' & q & Hs' & Hq); [now left |]. congruence.
    + split; [discriminate |]. intros H.
      destruct (H k) as (s' & q & Hs' & Hq); [now left |]. congruence.
    + split; [discriminate |]. intros H.
      destruct (H k) as (s' & q & Hs' & Hq); [now left |]. congruence.
Qed.

Lemma numeric_keys_required (key : string) :
  In key numeric_keys -> In key required_keys.
Proof. unfold numeric_keys, required_keys. simpl. intuition. Qed.

Lemma row_ok_validate (r : row) :
  row_ok float_of_str r
  = is_ok (check_required required_keys r)
    && is_ok (check_numeric float_of_str numeric_keys r).
Proof.
  unfold row_ok, validate_row.
  now destruct (check_required required_keys r) as [[] |].
Qed.

(** A row is rejected by the loop body exactly when it is malformed in the
    specification's sense. *)
Lemma row_ok_false_iff_malformed (r : row) :
  row_ok float_of_str r = false <-> malformed float_of_str r.
Proof.
  rewrite row_ok_validate. split.
  - intros H. apply andb_false_iff in H.
    destruct (is_ok (check_required required_keys r)) eqn:Hreq.
    + destruct H as [H | H]; [discriminate |].
      right.
      assert (Hn : ~ (forall key, In key numeric_keys ->
                 exists s q, r !! key = Some (Some s) /\ float_of_str s = Some q)).
      { intros Hall. apply (proj2 (check_numeric_ok _ _)) in Hall. congruence. }
      rewrite check_required_ok in Hreq.
      assert (Hdec : forall keys, (forall key, In key keys -> In key numeric_keys) ->
                (forall key, In key keys ->
                   exists s q, r !! key = Some (Some s) /\ float_of_str s = Some q)
                \/ exists key, In key keys /\ field_not_numeric float_of_str r key).
      { induction keys as [| k keys IHk]; intros Hsub.
        - left. intros key [].
        - destruct IHk as [Hall | (key & Hin & Hbad)].
          + intros key Hin. apply Hsub. now right.
          + assert (Hk : ~ field_missing r k)
              by (apply Hreq, numeric_keys_required, Hsub; now left).
            destruct (r !! k) as [[s |] |] eqn:Hlk.
            * destruct (float_of_str s) as [q |] eqn:Hs.
              -- left. intros key [<- | Hin]; [now exists s, q | now apply Hall].
              -- right. exists k. split; [now left | now exists s].
            * exfalso. apply Hk. right. now left.
            * exfalso. apply Hk. now left.
          + right. exists key. split; [now right | exact Hbad]. }
      destruct (Hdec numeric_keys (fun _ Hin => Hin)) as [Hall | Hbad];
        [contradiction | exact Hbad].
    + left.
      assert (Hn : ~ (forall key, In key required_keys -> ~ field_missing r key)).
      { intros Hall. apply (proj2 (check_required_ok _ _)) in Hall. congruence. }
      assert (Hdec : forall keys,
                (forall key, In key keys -> ~ field_missing r key)
                \/ exists key, In key keys /\ field_missing r key).
      { induction keys as [| k keys IHk].
        - left. intros key [].
        - destruct IHk as [Hall | (key & Hin & Hbad)].
          + destruct (r !! k) as [[s |] |] eqn:Hlk.
            * destruct (String.eqb_spec s "") as [-> | Hne].
              -- right. exists k. split; [now left |]. right. now right.
              -- left. intros key [<- | Hin]; [| now apply Hall].
                 intros [Hm | [Hm | Hm]]; congruence.
            * right. exists k. split; [now left |]. right. now left.
            * right. exists k. split; [now left |]. now left.
          + right. exists key. split; [now right | exact Hbad]. }
      destruct (Hdec required_keys) as [Hall | Hbad];
        [contradiction | exact Hbad].
  - intros [(key & Hin & Hmiss) | (key & Hin & s & Hs & Hf)];
      apply andb_false_iff.
    + left. destruct (is_ok (check_required required_keys r)) eqn:Hreq;
        [| reflexivity].
      rewrite check_required_ok in Hreq. exfalso. exact (Hreq key Hin Hmiss).
    + right. destruct (is_ok (check_numeric float_of_str numeric_keys r)) eqn:Hnum;
        [| reflexivity].
      rewrite check_numeric_ok in Hnum.
      destruct (Hnum key Hin) as (s' & q & Hs' & Hq). congruence.
Qed.

Lemma validate_loop_filter (rows : list row) (acc : validated) (i : nat) :
  valid_rows (validate_loop float_of_str acc i rows)
  = valid_rows acc ++ List.filter (row_ok float_of_str) rows /\
  malformed_rows (validate_loop float_of_str acc i rows)
  = malformed_rows acc
    ++ List.filter (fun r => negb (row_ok float_of_str r)) rows.
Proof.
  revert acc i. induction rows as [| r rows IH]; intros acc i; simpl.
  - now rewrite !app_nil_r.
  - destruct (IH (validate_step float_of_str acc i r) (S i)) as [-> ->].
    unfold validate_step, row_ok.
    destruct (validate_row float_of_str r); simpl;
      rewrite <- ?app_assoc; split; reflexivity.
Qed.

Lemma load_filter (rows : list row) :
  valid_rows (load_and_validate_csv float_of_str rows)
  = List.filter (row_ok float_of_str) rows /\
  malformed_rows (load_and_validate_csv float_of_str rows)
  = List.filter (fun r => negb (row_ok float_of_str r)) rows.
Proof. unfold load_and_validate_csv. apply validate_loop_filter. Qed.

Lemma length_filter_split {A} (f : A -> bool) (l : list A) :
  (length (List.filter f l) + length (List.filter (fun a => negb (f a)) l)
   = length l)%nat.
Proof. induction l as [| a l IH]; simpl; [reflexivity |]. destruct (f a); simpl; lia. Qed.

(** C6. For every sequence of raw rows, a row with a required field empty or
    absent, or with one of the six numeric fields failing numeric parsing,
    is put in the malformed output and not in the valid output; every other
    row is put in the valid output; the two outputs keep the input order
    and together hold every row once; and the rows after a malformed row
    are validated as if it were not there. *)
Theorem C6_validation_partitions_rows (rows : list row) :
  let out := load_and_validate_csv float_of_str rows in
  (forall r, In r rows -> malformed float_of_str r ->
     In r (malformed_rows out) /\ ~ In r (valid_rows out)) /\
  (forall r, In r rows -> ~ malformed float_of_str r ->
     In r (valid_rows out) /\ ~ In r (malformed_rows out)) /\
  valid_rows out = List.filter (row_ok float_of_str) rows /\
  malformed_rows out = List.filter (fun r => negb (row_ok float_of_str r)) rows /\
  (length (valid_rows out) + length (malformed_rows out) = length rows)%nat /\
  (forall before bad after, rows = before ++ bad :: after ->
     malformed float_of_str bad ->
     valid_rows out
     = valid_rows (load_and_validate_csv float_of_str before)
       ++ valid_rows (load_and_validate_csv float_of_str after) /\
     malformed_rows out
     = malformed_rows (load_and_validate_csv float_of_str before)
       ++ bad :: malformed_rows (load_and_validate_csv float_of_str after)).
Proof.
  intros out. subst out.
  destruct (load_filter rows) as [Hv Hm]. rewrite Hv, Hm.
  split; [| split; [| split; [reflexivity | split; [reflexivity | split]]]].
  - intros r Hin Hbad. apply (proj2 (row_ok_false_iff_malformed _)) in Hbad.
    rewrite !List.filter_In, Hbad. split; [now split |]. intros [_ H]. discriminate.
  - intros r Hin Hgood.
    assert (Hok : row_ok float_of_str r = true).
    { destruct (row_ok float_of_str r) eqn:E; [reflexivity |].
      exfalso. apply Hgood. now apply (proj1 (row_ok_false_iff_malformed r)). }
    rewrite !List.filter_In, Hok. split; [now split |]. intros [_ H]. discriminate.
  - apply length_filter_split.
  - intros before bad after -> Hbad.
    apply (proj2 (row_ok_false_iff_malformed _)) in Hbad.
    destruct (load_filter before) as [-> ->].
    destruct (load_filter after) as [-> ->].
    rewrite !List.filter_app. simpl. rewrite Hbad. simpl. now split.
Qed.

End ValidationProperties.

Lemma C6_validation_partitions_rows_witness :
  malformed decimal_float row_missing_soh /\
  In row_missing_soh (malformed_rows (load_and_validate_csv decimal_float mixed_batch)) /\
  ~ In row_missing_soh (valid_rows (load_and_validate_csv decimal_float mixed_batch)).
Proof.
  assert (Hbad : malformed decimal_float row_missing_soh).
  { left. exists "SOH". split; [simpl; tauto |].
    right. right. vm_compute. reflexivity. }
  split; [exact Hbad |].
  apply (proj1 (C6_validation_partitions_rows decimal_float mixed_batch)
               row_missing_soh); [simpl; tauto | exact Hbad].
Defined.

(** ** The series preparer *)

Lemma map_flag_yes : map_flag (Some "YES") = Some 1%Z.
Proof. reflexivity. Qed.

Lemma map_flag_no : map_flag (Some "NO") = Some 0%Z.
Proof. reflexivity. Qed.

(** A flag that is neither YES nor NO becomes a missing value. *)
Lemma map_flag_other (s : string) :
  s <> "YES" -> s <> "NO" -> map_flag (Some s) = None.
Proof.
  intros Hy Hn. unfold map_flag, flag_codes.
  rewrite lookup_insert_ne by congruence.
  apply lookup_singleton_ne. congruence.
Qed.

Lemma mapM_is_ok {A B} (f : A -> result B) (l : list A) :
  is_ok (mapM f l) = forallb (fun a => is_ok (f a)) l.
Proof.
  induction l as [| a l IH]; [reflexivity |].
  simpl. destruct (f a); simpl; [| reflexivity].
  rewrite <- IH. now destruct (mapM f l).
Qed.

(** Whether the preparation raises is decided by the Date and Sales columns
    alone: no value of a flag makes it raise. *)
Lemma preprocess_data_is_ok float_of_str datetime_of_str (df : list row) :
  is_ok (preprocess_data float_of_str datetime_of_str df)
  = forallb (fun r => is_ok (to_datetime datetime_of_str (col r "Date"))) df
    && forallb (fun r => is_ok (to_numeric float_of_str (col r "Sales"))) df.
Proof.
  unfold preprocess_data. rewrite <- !mapM_is_ok.
  destruct (mapM _ df); simpl; [| reflexivity].
  now destruct (mapM _ df).
Qed.

(** C4, at a row whose Promotion is "MAYBE": the row passes validation and
    the preparation does not raise, but the promotion regressor it yields is
    missing (NaN), not 0; "YES" gives 1 and "NO" gives 0. *)
Theorem C4_unrecognised_flag_becomes_missing :
  row_ok decimal_float row_maybe = true /\
  preprocess_data decimal_float iso_datetime [row_maybe]
  = Ok [mkSeriesRow (Some 20240101%Z) 100 None (Some 0%Z)] /\
  map_flag (col row_maybe "Promotion") <> Some 0%Z /\
  map_flag (Some "YES") = Some 1%Z /\
  map_flag (Some "NO") = Some 0%Z.
Proof.
  split; [vm_compute; reflexivity |].
  split; [vm_compute; reflexivity |].
  split; [vm_compute; discriminate |].
  split; reflexivity.
Qed.

(** ** The batch orchestrator *)


Section MainProperties.

Variable float_of_str : string -> option Q.
Variable datetime_of_str : string -> option Z.
Variable forecast_sales : list series_row -> Z -> result Q.
Variable format_float : Q -> string.
Variable round2 : Q -> Q.

Local Abbreviation sku_body :=
  (process_sku float_of_str datetime_of_str forecast_sales format_float round2).
Local Abbreviation skus_loop :=
  (sku_loop float_of_str datetime_of_str forecast_sales format_float round2).
Local Abbreviation run_main :=
  (main float_of_str datetime_of_str forecast_sales format_float round2).

Lemma submit_trace_no_decision (sku : cell) (last : row) (q : Q) (d : decision) :
  ~ In (EvDecision d) (trace (submit_if_needed sku last q)).
Proof.
  unfold submit_if_needed, call_api. destruct (Qlt_le_dec 0 q); cbn.
  - intros [H | [H | [H | []]]]; discriminate.
  - intros [H | []]; discriminate.
Qed.

Lemma submit_outcome_ok (sku : cell) (last : row) (q : Q) :
  outcome (submit_if_needed sku last q) = Ok tt.
Proof.
  unfold submit_if_needed, call_api. destruct (Qlt_le_dec 0 q); reflexivity.
Qed.

(** Every decision logged in a SKU's iteration is computed from the last of
    that SKU's rows in the order of the frame. *)
Lemma process_sku_decision (df : list row) (sku : cell) (d : decision) :
  In (EvDecision d) (trace (sku_body df sku)) ->
  exists series last,
    preprocess_data float_of_str datetime_of_str (select df "SKU" sku) = Ok series /\
    forecast_sales series forecast_interval = Ok (d_forecast d) /\
    iloc_last (select df "SKU" sku) = Ok last /\
    py_float float_of_str (col last "SOH") = Ok (d_soh d) /\
    py_float float_of_str (col last "Open_PO") = Ok (d_open_po d) /\
    py_float float_of_str (col last "Open_SO") = Ok (d_open_so d) /\
    py_float float_of_str (col last "Min_Days") = Ok (d_min_days d) /\
    py_float float_of_str (col last "Max_Days") = Ok (d_max_days d) /\
    d_sku d = sku /\
    (d_min_inv d, d_max_inv d)
    = compute_min_max_inventory (d_forecast d) (d_min_days d) (d_max_days d) /\
    d_adjusted_soh d
    = compute_adjusted_soh (d_soh d) (d_open_po d) (d_open_so d) /\
    (d_procurement_qty d, d_reason d)
    = procurement_decision format_float (d_adjusted_soh d) (d_min_inv d) (d_max_inv d).
Proof.
  unfold process_sku, float_at.
  destruct (select df "SKU" sku) as [| r0 sku_df] eqn:Hsel.
  { cbn. intros [H | []]. discriminate. }
  destruct (preprocess_data float_of_str datetime_of_str (r0 :: sku_df))
    as [series | e] eqn:Hpre; [run_step | run_step; intros []].
  run_step.
  destruct (forecast_sales series forecast_interval) as [fq | e] eqn:Hfc;
    [run_step | run_step; cbn; intros [H | []]; discriminate].
  destruct (iloc_last (r0 :: sku_df)) as [last | e] eqn:Hlast;
    [run_step | run_step; cbn; intros [H | []]; discriminate].
  destruct (py_float float_of_str (col last "SOH")) as [soh | e] eqn:Hsoh;
    [run_step | run_step; cbn; intros [H | []]; discriminate].
  destruct (py_float float_of_str (col last "Open_PO")) as [po | e] eqn:Hpo;
    [run_step | run_step; cbn; intros [H | []]; discriminate].
  destruct (py_float float_of_str (col last "Open_SO")) as [so | e] eqn:Hso;
    [run_step | run_step; cbn; intros [H | []]; discriminate].
  destruct (py_float float_of_str (col last "Min_Days")) as [mind | e] eqn:Hmind;
    [run_step | run_step; cbn; intros [H | []]; discriminate].
  destruct (py_float float_of_str (col last "Max_Days")) as [maxd | e] eqn:Hmaxd;
    [run_step | run_step; cbn; intros [H | []]; discriminate].
  cbn [compute_min_max_inventory].
  destruct (procurement_decision format_float (compute_adjusted_soh soh po so)
              (fq * mind)%Q (fq * maxd)%Q) as [q reason] eqn:Hdec.
  rewrite !bind_emit. cbn [trace fst].
  intros [H | [H | [H | [H | H]]]]; try discriminate.
  - injection H as <-. exists series, last. cbn.
    repeat split; try assumption; try reflexivity. now rewrite Hdec.
  - exfalso. rewrite bind_pair_ok in H || idtac.
    revert H. rewrite (run_eta (submit_if_needed sku last q)), submit_outcome_ok.
    rewrite bind_pair_ok. cbn. rewrite app_nil_r.
    apply submit_trace_no_decision.
Qed.

(** C1. For every adjusted stock-on-hand and every pair of targets, the
    decision of [main] yields the quantity of the rule "if adjustedSoh <
    minInventory then max(0, maxInventory - adjustedSoh), otherwise 0" and a
    reason that names the branch taken ("<" or ">=") together with the two
    compared values; and every decision a SKU's iteration logs carries that
    quantity and that reason for its adjusted stock and targets. *)
Theorem C1_procurement_decision_rule :
  (forall a mn mx : Q,
      procurement_decision format_float a mn mx
      = (spec_procurement_qty a mn mx, spec_reason format_float a mn)) /\
  (forall (df : list row) (sku : cell) (d : decision),
      In (EvDecision d) (trace (sku_body df sku)) ->
      d_procurement_qty d
      = spec_procurement_qty (d_adjusted_soh d) (d_min_inv d) (d_max_inv d) /\
      d_reason d = spec_reason format_float (d_adjusted_soh d) (d_min_inv d)).
Proof.
  split; [apply procurement_decision_spec |].
  intros df sku d Hin.
  destruct (process_sku_decision df sku d Hin)
    as (series & last & _ & _ & _ & _ & _ & _ & _ & _ & _ & _ & _ & Hdec).
  rewrite procurement_decision_spec in Hdec.
  now injection Hdec as -> ->.
Qed.

Lemma bind_ext {A B} (m : run A) (k k' : A -> run B) :
  (forall a, k a = k' a) -> bind m k = bind m k'.
Proof. intros H. destruct m as [t [a | e]]; simpl; [now rewrite H | reflexivity]. Qed.

Lemma sku_loop_app (df : list row) (l1 l2 : list cell) (acc : list summary_row) :
  skus_loop df (l1 ++ l2) acc
  = bind (skus_loop df l1 acc) (fun acc' => skus_loop df l2 acc').
Proof.
  revert acc. induction l1 as [| sku l1 IH]; intros acc.
  - cbn [app sku_loop]. now rewrite bind_ret.
  - cbn [app sku_loop]. rewrite bind_assoc. apply bind_ext.
    intros s. apply IH.
Qed.

Lemma In_unique (x : cell) (l : list cell) : In x (unique l) -> In x l.
Proof.
  induction l as [| a l IH]; simpl; [tauto |].
  intros [H | H]; [now left |]. right. apply IH.
  apply List.filter_In in H. tauto.
Qed.

Lemma select_nonempty (df : list row) (sku : cell) :
  In sku (map (fun r => col r "SKU") df) -> select df "SKU" sku <> [].
Proof.
  intros Hin. apply in_map_iff in Hin. destruct Hin as (r & Hr & Hin).
  assert (Hsel : In r (select df "SKU" sku)).
  { unfold select. apply List.filter_In. split; [exact Hin |].
    unfold cell_eqb. now apply bool_decide_eq_true. }
  intros Hnil. rewrite Hnil in Hsel. exact Hsel.
Qed.

(** A SKU whose forecast raises ends its iteration at the forecaster call. *)
Lemma process_sku_forecast_raises (df : list row) (sku : cell)
    (series : list series_row) (e : exn) :
  select df "SKU" sku <> [] ->
  preprocess_data float_of_str datetime_of_str (select df "SKU" sku) = Ok series ->
  forecast_sales series forecast_interval = Raise e ->
  sku_body df sku = ([EvForecast sku series forecast_interval], Raise e).
Proof.
  intros Hne Hpre Hfc. unfold process_sku.
  destruct (select df "SKU" sku) as [| r0 sku_df]; [congruence |].
  rewrite Hpre. run_step. run_step. rewrite Hfc. now run_step.
Qed.


(** C7. For every input whose valid rows are empty, [main] logs the
    validation lines, reports "No valid data to process." and returns: the
    trace holds no forecasting, decision or order event. *)
Theorem C7_empty_batch_stops_before_processing (rows : list row) :
  valid_rows (load_and_validate_csv float_of_str rows) = [] ->
  run_main rows
  = (validation_log (load_and_validate_csv float_of_str rows) ++ [EvNoValidData],
     Ok None) /\
  Forall (fun e => is_processing_event e = false) (trace (run_main rows)).
Proof.
  intros Hempty.
  assert (Hmain : run_main rows
    = (validation_log (load_and_validate_csv float_of_str rows) ++ [EvNoValidData],
       Ok None)).
  { unfold main. rewrite Hempty. rewrite bind_pair_ok. reflexivity. }
  split; [exact Hmain |]. rewrite Hmain. cbn [trace fst].
  apply Forall_app. split.
  - unfold validation_log. apply Forall_app. split.
    + apply List.Forall_forall. intros ev Hev. apply in_map_iff in Hev.
      now destruct Hev as (w & <- & _).
    + now constructor.
  - now constructor.
Qed.

(** C8, amended. When the forecaster raises for a SKU, nothing catches the
    exception: the run ends with it at that SKU's forecaster call.  The SKUs
    before it in order of first appearance have had their iterations; no
    decision is computed and no order is submitted for that SKU or for any
    SKU after it. *)
Theorem C8_forecast_failure_aborts_run
    (rows : list row) (pre post : list cell) (sku : cell)
    (tr : list event) (summary : list summary_row)
    (series : list series_row) (e : exn) :
  let df := valid_rows (load_and_validate_csv float_of_str rows) in
  unique (map (fun r => col r "SKU") df) = pre ++ sku :: post ->
  skus_loop df pre [] = (tr, Ok summary) ->
  preprocess_data float_of_str datetime_of_str (select df "SKU" sku) = Ok series ->
  forecast_sales series forecast_interval = Raise e ->
  run_main rows
  = (validation_log (load_and_validate_csv float_of_str rows)
       ++ EvProcessingSkus (pre ++ sku :: post)
       :: tr ++ [EvForecast sku series forecast_interval],
     Raise e).
Proof.
  intros df Huniq Hpre Hseries Hraise.
  assert (Hsku : select df "SKU" sku <> []).
  { apply select_nonempty, In_unique. rewrite Huniq.
    apply in_or_app. right. now left. }
  unfold main. fold df.
  destruct df as [| r0 df'] eqn:Hdf; [now destruct pre |].
  rewrite bind_pair_ok, bind_emit.
  rewrite Huniq, sku_loop_app, Hpre, bind_pair_ok.
  cbn [sku_loop].
  rewrite (process_sku_forecast_raises (r0 :: df') sku series e Hsku Hseries Hraise).
  reflexivity.
Qed.

End MainProperties.



Lemma C7_empty_batch_stops_before_processing_witness :
  valid_rows (load_and_validate_csv decimal_float [row_missing_soh]) = [] /\
  outcome (main decimal_float iso_datetime (constant_forecast 100) plain_format
                no_rounding [row_missing_soh]) = Ok None /\
  Forall (fun e => is_processing_event e = false)
         (trace (main decimal_float iso_datetime (constant_forecast 100) plain_format
                      no_rounding [row_missing_soh])).
Proof.
  assert (Hempty : valid_rows (load_and_validate_csv decimal_float [row_missing_soh]) = [])
    by (vm_compute; reflexivity).
  split; [exact Hempty |].
  destruct (C7_empty_batch_stops_before_processing decimal_float iso_datetime
              (constant_forecast 100) plain_format no_rounding
              [row_missing_soh] Hempty) as [Hmain Hnone].
  split; [| exact Hnone].
  exact (f_equal snd Hmain).
Defined.

(** C8 as stated fails: with a forecaster that raises on a one-row series,
    the batch A1 (one row), B2 (two rows) ends with the forecaster's
    exception at A1; B2, whose forecast would succeed, gets no event at
    all. *)
Lemma C8_counterexample :
  let m := main decimal_float iso_datetime (two_row_forecast 100) plain_format
                no_rounding short_history_batch in
  unique (map (fun r => col r "SKU")
              (valid_rows (load_and_validate_csv decimal_float short_history_batch)))
  = [Some "A1"; Some "B2"] /\
  rbind (preprocess_data decimal_float iso_datetime
           (select short_history_batch "SKU" (Some "B2")))
        (fun series => two_row_forecast 100 series forecast_interval)
  = Ok 100%Q /\
  outcome m = Raise (ValueError "Dataframe has less than 2 non-NaN rows.") /\
  forallb (fun e => negb (bool_decide (event_sku e = Some (Some "B2")))) (trace m)
  = true /\
  decisions_of (trace m) = [].
Proof.
  cbv zeta. repeat split; vm_compute; reflexivity.
Qed.

Lemma C8_forecast_failure_aborts_run_witness :
  let m := main decimal_float iso_datetime (two_row_forecast 100) plain_format
                no_rounding late_failure_batch in
  outcome m = Raise (ValueError "Dataframe has less than 2 non-NaN rows.") /\
  map d_sku (decisions_of (trace m)) = [Some "B2"].
Proof.
  cbv zeta.
  pose (df := valid_rows (load_and_validate_csv decimal_float late_failure_batch)).
  pose (before := sku_loop decimal_float iso_datetime (two_row_forecast 100)
                    plain_format no_rounding df [Some "B2"] []).
  pose proof (C8_forecast_failure_aborts_run decimal_float iso_datetime
                (two_row_forecast 100) plain_format no_rounding
                late_failure_batch [Some "B2"] [Some "C3"] (Some "A1")
                (trace before)
                (match outcome before with Ok s => s | Raise _ => [] end)
                [mkSeriesRow (Some 20240101%Z) 100 (Some 0%Z) (Some 0%Z)]
                (ValueError "Dataframe has less than 2 non-NaN rows.")) as H.
  cbv zeta in H.
  rewrite H.
  - split; [reflexivity |]. vm_compute. reflexivity.
  - vm_compute. reflexivity.
  - vm_compute. reflexivity.
  - vm_compute. reflexivity.
  - vm_compute. reflexivity.
Defined.

Lemma C1_procurement_decision_rule_witness :
  In (EvDecision decision_a1)
     (trace (process_sku decimal_float iso_datetime (constant_forecast 100)
                         plain_format no_rounding [row_a1; row_b2] (Some "A1"))) /\
  d_procurement_qty decision_a1 = spec_procurement_qty 60 100 300 /\
  d_reason decision_a1 = "Adjusted SOH 60.0 < Min Inventory 100.0".
Proof.
  assert (Hin : In (EvDecision decision_a1)
     (trace (process_sku decimal_float iso_datetime (constant_forecast 100)
                         plain_format no_rounding [row_a1; row_b2] (Some "A1")))).
  { vm_compute. do 3 right. left. reflexivity. }
  split; [exact Hin |].
  exact (proj2 (C1_procurement_decision_rule decimal_float iso_datetime
                  (constant_forecast 100) plain_format no_rounding)
               [row_a1; row_b2] (Some "A1") decision_a1 Hin).
Defined.

(** * Further properties of the code *)

(** ** inventory_analysis.py *)


(** X2. The quantity [main] decides never grows when the adjusted stock
    grows, whatever the two targets. *)
Theorem X2_decision_antitone_in_stock (fmt : Q -> string) (a1 a2 mn mx : Q) :
  (a1 <= a2)%Q ->
  (fst (procurement_decision fmt a2 mn mx) <= fst (procurement_decision fmt a1 mn mx))%Q.
Proof.
  intros Hle. unfold procurement_decision, py_max.
  destruct (Qlt_le_dec a2 mn), (Qlt_le_dec a1 mn); simpl;
    repeat match goal with |- context [Qlt_le_dec ?x ?y] => destruct (Qlt_le_dec x y) end;
    lra.
Qed.

Lemma X2_decision_antitone_in_stock_witness :
  (60 <= 150)%Q /\
  (fst (procurement_decision plain_format 150 100 300)
   <= fst (procurement_decision plain_format 60 100 300))%Q.
Proof.
  assert (H : (60 <= 150)%Q) by lra.
  split; [exact H |].
  exact (X2_decision_antitone_in_stock plain_format 60 150 100 300 H).
Defined.





(** ** api_handler.py *)

(** X5. With [retries] of 0 or less the loop of [place_purchase_order] has
    nothing to iterate over: no attempt is made, "All retries failed" is
    logged and the function returns False. *)
Theorem X5_no_retries_reports_failure
    (api_url token : string) (p : payload) (retries : Z) :
  (retries <= 0)%Z ->
  place_purchase_order api_url token p retries = ([EvAllRetriesFailed], Ok false).
Proof.
  intros H. unfold place_purchase_order, place_purchase_order_with, attempts_range.
  replace (Z.to_nat retries) with 0%nat by lia. reflexivity.
Qed.

Lemma X5_no_retries_reports_failure_witness :
  (0 <= 0)%Z /\
  place_purchase_order api_url "DUMMY_TOKEN" sample_payload 0
  = ([EvAllRetriesFailed], Ok false).
Proof.
  split; [lia |]. apply X5_no_retries_reports_failure. lia.
Defined.






(** ** data_processing.py : load_and_validate_csv *)

Section ValidationFurther.

Variable float_of_str : string -> option Q.

Lemma validate_loop_warnings (rows : list row) (acc : validated) (n i : nat)
    (r : row) (e : exn) :
  In (i, r, e) (warnings (validate_loop float_of_str acc n rows)) <->
  In (i, r, e) (warnings acc) \/
  exists j, i = (n + j)%nat /\ rows !! j = Some r /\
            validate_row float_of_str r = Raise e.
Proof.
  revert acc n. induction rows as [| r0 rows IH]; intros acc n.
  - simpl. split; [now left |]. intros [H | (j & _ & Hj & _)]; [exact H |].
    discriminate.
  - cbn [validate_loop]. rewrite IH. unfold validate_step.
    destruct (validate_row float_of_str r0) as [[] | e0] eqn:Hr0;
      cbn [warnings].
    + split.
      * intros [H | (j & -> & Hj & He)]; [now left |].
        right. exists (S j). repeat split; [lia | exact Hj | exact He].
      * intros [H | (j & -> & Hj & He)]; [now left |].
        destruct j as [| j]; [simpl in Hj; congruence |].
        right. exists j. repeat split; [lia | exact Hj | exact He].
    + rewrite in_app_iff. split.
      * intros [[H | H] | (j & -> & Hj & He)].
        -- now left.
        -- destruct H as [H | []]. injection H as <- <- <-.
           right. exists 0%nat. repeat split; [lia | exact Hr0].
        -- right. exists (S j). repeat split; [lia | exact Hj | exact He].
      * intros [H | (j & -> & Hj & He)]; [left; now left |].
        destruct j as [| j].
        -- simpl in Hj. injection Hj as <-. left. right. left.
           rewrite Nat.add_0_r. congruence.
        -- right. exists j. repeat split; [lia | exact Hj | exact He].
Qed.

Lemma validate_loop_warned_rows (rows : list row) (acc : validated) (n : nat) :
  map (fun w => snd (fst w)) (warnings acc) = malformed_rows acc ->
  map (fun w => snd (fst w)) (warnings (validate_loop float_of_str acc n rows))
  = malformed_rows (validate_loop float_of_str acc n rows).
Proof.
  revert acc n. induction rows as [| r rows IH]; intros acc n Hacc; [exact Hacc |].
  cbn [validate_loop]. apply IH. unfold validate_step.
  destruct (validate_row float_of_str r); cbn [warnings malformed_rows];
    [exact Hacc |].
  rewrite map_app, Hacc. reflexivity.
Qed.

(** X7. The warnings of [load_and_validate_csv] are exactly the rejected
    rows: a warning (i, row, error) is logged if and only if [row] is the
    i-th row of the input, counted from 1, and the body of the try raised
    [error] on it; the rows of the warnings are the malformed rows, in order;
    and the total of the logged count line is the number of input rows. *)
Theorem X7_warnings_name_the_rejected_rows (rows : list row) :
  let out := load_and_validate_csv float_of_str rows in
  (forall i r e,
      In (i, r, e) (warnings out) <->
      exists j, i = S j /\ rows !! j = Some r /\
                validate_row float_of_str r = Raise e) /\
  map (fun w => snd (fst w)) (warnings out) = malformed_rows out /\
  fst (fst (logged_counts out)) = length rows.
Proof.
  cbv zeta. split; [| split].
  - intros i r e. unfold load_and_validate_csv.
    rewrite validate_loop_warnings. cbn [warnings]. split.
    + intros [[] | (j & -> & H)]. now exists j.
    + intros (j & -> & H). right. now exists j.
  - unfold load_and_validate_csv. now apply validate_loop_warned_rows.
  - unfold logged_counts. cbn [fst].
    destruct (load_filter float_of_str rows) as [-> ->].
    apply length_filter_split.
Qed.

Lemma check_required_prefix (pre post : list string) (k : string) (r : row) :
  (forall k', In k' pre -> ~ field_missing r k') ->
  check_required (pre ++ k :: post) r = check_required (k :: post) r.
Proof.
  induction pre as [| k0 pre IH]; intros Hpre; [reflexivity |].
  cbn [app check_required]. unfold getitem.
  assert (H0 : ~ field_missing r k0) by (apply Hpre; now left).
  destruct (r !! k0) as [[s |] |] eqn:Hk0; simpl.
  - destruct (String.eqb_spec s "") as [-> | _].
    + exfalso. apply H0. right. now right.
    + apply IH. intros k' Hin. apply Hpre. now right.
  - exfalso. apply H0. right. now left.
  - exfalso. apply H0. now left.
Qed.

(** X8. The error reported for a row names its first missing required
    field, in the order of [required_keys]: [KeyError] when the column is
    absent from the row, [ValueError("Missing value for <key>")] when its
    value is None or empty.  These errors come before any numeric check. *)
Theorem X8_first_missing_field_is_reported
    (r : row) (pre post : list string) (key : string) :
  required_keys = pre ++ key :: post ->
  (forall k', In k' pre -> ~ field_missing r k') ->
  (r !! key = None -> validate_row float_of_str r = Raise (KeyError key)) /\
  (r !! key = Some None \/ r !! key = Some (Some "") ->
   validate_row float_of_str r = Raise (ValueError ("Missing value for " ++ key))).
Proof.
  intros Hkeys Hpre. unfold validate_row. rewrite Hkeys.
  rewrite (check_required_prefix pre post key r Hpre).
  cbn [check_required]. unfold getitem. split.
  - intros ->. reflexivity.
  - intros [-> | ->]; reflexivity.
Qed.

Lemma validate_loop_all_ok (rows : list row) (acc : validated) (n : nat) :
  forallb (row_ok float_of_str) rows = true ->
  validate_loop float_of_str acc n rows
  = mkValidated (valid_rows acc ++ rows) (malformed_rows acc) (warnings acc).
Proof.
  revert acc n. induction rows as [| r rows IH]; intros acc n Hall.
  - simpl. rewrite app_nil_r. now destruct acc.
  - simpl in Hall. apply andb_true_iff in Hall. destruct Hall as [Hr Hall].
    cbn [validate_loop]. rewrite (IH _ _ Hall). unfold validate_step.
    unfold row_ok in Hr. destruct (validate_row float_of_str r); [| discriminate].
    cbn [valid_rows malformed_rows warnings]. now rewrite <- app_assoc.
Qed.

Lemma forallb_filter {A} (f : A -> bool) (l : list A) :
  forallb f (List.filter f l) = true.
Proof.
  induction l as [| a l IH]; [reflexivity |]. simpl.
  destruct (f a) eqn:Ha; [| exact IH]. simpl. now rewrite Ha.
Qed.

(** X9. Validation is idempotent: the rows [load_and_validate_csv] returns
    all pass when they are validated again, in the same order, with no
    malformed row and no warning. *)
Theorem X9_validation_is_idempotent (rows : list row) :
  load_and_validate_csv float_of_str
    (valid_rows (load_and_validate_csv float_of_str rows))
  = mkValidated (valid_rows (load_and_validate_csv float_of_str rows)) [] [].
Proof.
  destruct (load_filter float_of_str rows) as [-> _].
  unfold load_and_validate_csv at 1.
  now rewrite validate_loop_all_ok by apply forallb_filter.
Qed.

End ValidationFurther.

Lemma X8_first_missing_field_is_reported_witness :
  validate_row decimal_float row_missing_soh
  = Raise (ValueError "Missing value for SOH").
Proof.
  apply (X8_first_missing_field_is_reported decimal_float row_missing_soh
           ["Company"; "Warehouse"; "Date"; "SKU"; "Sales"]
           ["Open_PO"; "Open_SO"; "Promotion"; "Festival"; "Min_Days"; "Max_Days"]
           "SOH").
  - reflexivity.
  - intros k' Hin [H | [H | H]];
      repeat (destruct Hin as [<- | Hin]; [vm_compute in H; discriminate |]);
      destruct Hin.
  - right. vm_compute. reflexivity.
Defined.

(** ** data_processing.py : preprocess_data *)

(** X10. [Series.map] with the dictionary of [preprocess_data] gives 1
    exactly for "YES", 0 exactly for "NO" (the comparison is case sensitive)
    and a missing value for everything else, a missing cell included. *)
Theorem X10_flag_codes (v : cell) :
  (map_flag v = Some 1%Z <-> v = Some "YES") /\
  (map_flag v = Some 0%Z <-> v = Some "NO") /\
  (map_flag v = None <-> v <> Some "YES" /\ v <> Some "NO").
Proof.
  destruct v as [s |]; cbn [map_flag].
  - destruct (decide (s = "YES")) as [-> | Hy];
      [repeat split; intros; try reflexivity; try discriminate;
       try (vm_compute in *; congruence); tauto |].
    destruct (decide (s = "NO")) as [-> | Hn];
      [repeat split; intros; try reflexivity; try discriminate;
       try (vm_compute in *; congruence); tauto |].
    pose proof (map_flag_other s Hy Hn) as Hnone. cbn [map_flag] in Hnone.
    rewrite Hnone. repeat split; intros; try discriminate; congruence.
  - repeat split; intros; try discriminate; congruence.
Qed.

Lemma mapM_map {A B C} (g : A -> B) (f : B -> result C) (l : list A) :
  mapM (fun a => f (g a)) l = mapM f (map g l).
Proof. induction l as [| a l IH]; [reflexivity |]. simpl. now rewrite IH. Qed.



Section PreprocessFurther.

Variable float_of_str : string -> option Q.
Variable datetime_of_str : string -> option Z.


(** X12. [preprocess_data] reads the Date, Sales, Promotion and Festival
    columns and nothing else: two frames that agree on these four columns
    give the same result, be it a frame or an exception. *)
Theorem X12_preparation_reads_four_columns (df1 df2 : list row) :
  (forall key, In key series_keys ->
     map (fun r => col r key) df1 = map (fun r => col r key) df2) ->
  preprocess_data float_of_str datetime_of_str df1
  = preprocess_data float_of_str datetime_of_str df2.
Proof.
  intros Hcols. unfold preprocess_data.
  rewrite !(mapM_map (fun r => col r "Date") (to_datetime datetime_of_str)).
  rewrite !(mapM_map (fun r => col r "Sales") (to_numeric float_of_str)).
  rewrite <- !(map_map (fun r => col r "Promotion") map_flag).
  rewrite <- !(map_map (fun r => col r "Festival") map_flag).
  rewrite (Hcols "Date"), (Hcols "Sales"), (Hcols "Promotion"), (Hcols "Festival");
    unfold series_keys; simpl; tauto.
Qed.

End PreprocessFurther.


Lemma X12_preparation_reads_four_columns_witness :
  preprocess_data decimal_float iso_datetime [row_jan1]
  = preprocess_data decimal_float iso_datetime
      [<["SOH" := Some "0"]> row_jan1].
Proof.
  apply X12_preparation_reads_four_columns.
  intros key Hin. unfold series_keys in Hin.
  repeat (destruct Hin as [<- | Hin]; [vm_compute; reflexivity |]).
  destruct Hin.
Defined.

(** ** main.py *)

Lemma trace_bind {A B} (m : run A) (k : A -> run B) :
  trace (bind m k)
  = trace m ++ match outcome m with Ok a => trace (k a) | Raise _ => [] end.
Proof.
  destruct m as [t [a | e]]; simpl.
  - now destruct (k a).
  - now rewrite app_nil_r.
Qed.

Lemma outcome_bind {A B} (m : run A) (k : A -> run B) :
  outcome (bind m k)
  = match outcome m with Ok a => outcome (k a) | Raise e => Raise e end.
Proof. destruct m as [t [a | e]]; simpl; [now destruct (k a) | reflexivity]. Qed.




Lemma unique_NoDup (l : list cell) : List.NoDup (unique l).
Proof.
  induction l as [| a l IH]; simpl; [constructor |]. constructor.
  - rewrite List.filter_In. intros [_ H]. unfold cell_eqb in H.
    rewrite bool_decide_eq_true_2 in H by reflexivity. discriminate.
  - now apply List.NoDup_filter.
Qed.

Lemma unique_In (x : cell) (l : list cell) : In x (unique l) <-> In x l.
Proof.
  split; [apply In_unique |].
  induction l as [| a l IH]; simpl; [tauto |].
  intros [-> | H]; [now left |].
  destruct (decide (x = a)) as [-> | Hne]; [now left |].
  right. apply List.filter_In. split; [now apply IH |].
  unfold cell_eqb. now rewrite bool_decide_eq_false_2.
Qed.

Section MainFurther.

Variable float_of_str : string -> option Q.
Variable datetime_of_str : string -> option Z.
Variable forecast_sales : list series_row -> Z -> result Q.
Variable format_float : Q -> string.
Variable round2 : Q -> Q.

Local Abbreviation sku_body :=
  (process_sku float_of_str datetime_of_str forecast_sales format_float round2).
Local Abbreviation skus_loop :=
  (sku_loop float_of_str datetime_of_str forecast_sales format_float round2).
Local Abbreviation run_main :=
  (main float_of_str datetime_of_str forecast_sales format_float round2).
Local Abbreviation prepare := (preprocess_data float_of_str datetime_of_str).
Local Abbreviation load := (load_and_validate_csv float_of_str).

Lemma submit_if_needed_eq (sku : cell) (last : row) (q : Q) :
  submit_if_needed sku last q
  = if Qlt_le_dec 0 q
    then ([EvGetToken;
           EvAttempt 1 api_url "DUMMY_TOKEN"
             (mkPayload sku q (col last "Company") (col last "Warehouse"));
           EvOrderPlaced], Ok tt)
    else ([EvNoProcurement sku], Ok tt).
Proof. unfold submit_if_needed, call_api. now destruct (Qlt_le_dec 0 q). Qed.

(** The four ways an iteration of the loop of [main] can go. *)
Lemma process_sku_shape (df : list row) (sku : cell) :
  (select df "SKU" sku = [] /\ sku_body df sku = ([EvNoDataForSku sku], Ok None)) \/
  (exists e, prepare (select df "SKU" sku) = Raise e /\
             sku_body df sku = ([], Raise e)) \/
  (exists series e,
      prepare (select df "SKU" sku) = Ok series /\
      sku_body df sku = ([EvForecast sku series forecast_interval], Raise e) /\
      (forecast_sales series forecast_interval = Raise e \/
       iloc_last (select df "SKU" sku) = Raise e \/
       exists last key, iloc_last (select df "SKU" sku) = Ok last /\
                        In key snapshot_keys /\
                        py_float float_of_str (col last key) = Raise e)) \/
  (exists series last d,
      prepare (select df "SKU" sku) = Ok series /\
      iloc_last (select df "SKU" sku) = Ok last /\
      d_sku d = sku /\
      sku_body df sku
      = (EvForecast sku series forecast_interval
           :: EvMinMax (d_min_inv d) (d_max_inv d)
           :: EvAdjustedSoh (d_adjusted_soh d)
           :: EvDecision d
           :: trace (submit_if_needed sku last (d_procurement_qty d)),
         Ok (Some (summary_of_decision round2 d)))).
Proof.
  unfold process_sku, float_at.
  destruct (select df "SKU" sku) as [| r0 sku_df] eqn:Hsel.
  { left. split; reflexivity. }
  right.
  destruct (prepare (r0 :: sku_df)) as [series | e] eqn:Hpre;
    [run_step | left; exists e; split; reflexivity].
  right. run_step.
  destruct (forecast_sales series forecast_interval) as [fq | e] eqn:Hfc;
    [run_step | left; exists series, e; run_step; cbn; auto].
  destruct (iloc_last (r0 :: sku_df)) as [last | e] eqn:Hlast;
    [run_step | left; exists series, e; run_step; cbn; auto].
  assert (Hkey : forall key e, In key snapshot_keys ->
            py_float float_of_str (col last key) = Raise e ->
            exists last' key', Ok last = Ok last' /\ In key' snapshot_keys /\
              py_float float_of_str (col last' key') = Raise e)
    by (intros key e Hin He; now exists last, key).
  destruct (py_float float_of_str (col last "SOH")) as [soh | e] eqn:Hsoh;
    [run_step | left; exists series, e; run_step; cbn; repeat split;
                right; right; apply (Hkey "SOH"); [simpl; tauto | exact Hsoh]].
  destruct (py_float float_of_str (col last "Open_PO")) as [po | e] eqn:Hpo;
    [run_step | left; exists series, e; run_step; cbn; repeat split;
                right; right; apply (Hkey "Open_PO"); [simpl; tauto | exact Hpo]].
  destruct (py_float float_of_str (col last "Open_SO")) as [so | e] eqn:Hso;
    [run_step | left; exists series, e; run_step; cbn; repeat split;
                right; right; apply (Hkey "Open_SO"); [simpl; tauto | exact Hso]].
  destruct (py_float float_of_str (col last "Min_Days")) as [mind | e] eqn:Hmind;
    [run_step | left; exists series, e; run_step; cbn; repeat split;
                right; right; apply (Hkey "Min_Days"); [simpl; tauto | exact Hmind]].
  destruct (py_float float_of_str (col last "Max_Days")) as [maxd | e] eqn:Hmaxd;
    [run_step | left; exists series, e; run_step; cbn; repeat split;
                right; right; apply (Hkey "Max_Days"); [simpl; tauto | exact Hmaxd]].
  right. cbn [compute_min_max_inventory].
  destruct (procurement_decision format_float (compute_adjusted_soh soh po so)
              (fq * mind)%Q (fq * maxd)%Q) as [q reason] eqn:Hdec.
  exists series, last,
    (mkDecision sku fq soh po so mind maxd (fq * mind)%Q (fq * maxd)%Q
                (compute_adjusted_soh soh po so) q reason).
  rewrite !bind_emit. cbn [trace outcome fst snd d_sku d_min_inv d_max_inv
                           d_adjusted_soh d_procurement_qty].
  rewrite (run_eta (submit_if_needed sku last q)), submit_outcome_ok.
  rewrite bind_pair_ok. cbn. rewrite app_nil_r. repeat split.
Qed.

Lemma main_run_eq (rows : list row) :
  run_main rows
  = match valid_rows (load rows) with
    | [] => (validation_log (load rows) ++ [EvNoValidData], Ok None)
    | r :: df' =>
        let df := r :: df' in
        let skus := unique (map (fun r => col r "SKU") df) in
        (validation_log (load rows)
           ++ EvProcessingSkus skus :: trace (skus_loop df skus []),
         match outcome (skus_loop df skus []) with
         | Ok summary => Ok (Some summary)
         | Raise e => Raise e
         end)
    end.
Proof.
  unfold main. rewrite bind_pair_ok.
  destruct (valid_rows (load rows)) as [| r df']; [reflexivity |].
  cbv zeta. rewrite bind_emit. cbn [trace outcome fst snd].
  rewrite trace_bind, outcome_bind.
  destruct (outcome (skus_loop _ _ _)); cbn; now rewrite ?app_nil_r.
Qed.

Lemma sku_loop_trace_ind (P : list event -> Prop) (df : list row) :
  P [] -> (forall t1 t2, P t1 -> P t2 -> P (t1 ++ t2)) ->
  forall skus, (forall sku, In sku skus -> P (trace (sku_body df sku))) ->
  forall acc, P (trace (skus_loop df skus acc)).
Proof.
  intros Hnil Happ. induction skus as [| sku skus IH]; intros Hall acc.
  - exact Hnil.
  - cbn [sku_loop]. rewrite trace_bind. apply Happ; [apply Hall; now left |].
    destruct (outcome (sku_body df sku)); [| exact Hnil].
    apply IH. intros s Hs. apply Hall. now right.
Qed.


Lemma decisions_of_app (t1 t2 : list event) :
  decisions_of (t1 ++ t2) = decisions_of t1 ++ decisions_of t2.
Proof. apply omap_app. Qed.

Lemma payloads_of_app (t1 t2 : list event) :
  payloads_of (t1 ++ t2) = payloads_of t1 ++ payloads_of t2.
Proof. apply omap_app. Qed.

Lemma validation_log_views (v : validated) :
  decisions_of (validation_log v) = [] /\ payloads_of (validation_log v) = [] /\
  attempts_of (validation_log v) = [] /\
  Forall (fun e => is_failure_event e = false) (validation_log v).
Proof.
  unfold validation_log. induction (warnings v) as [| w ws IH]; cbn.
  - repeat split. now repeat constructor.
  - destruct IH as (H1 & H2 & H3 & H4). repeat split; try assumption.
    constructor; [reflexivity | exact H4].
Qed.

(** The decisions an iteration logs: one when it completes, none otherwise. *)
Lemma process_sku_decisions (df : list row) (sku : cell) :
  match outcome (sku_body df sku) with
  | Ok (Some s) => exists d, decisions_of (trace (sku_body df sku)) = [d] /\
                             d_sku d = sku /\ s = summary_of_decision round2 d
  | Ok None => select df "SKU" sku = [] /\ decisions_of (trace (sku_body df sku)) = []
  | Raise _ => decisions_of (trace (sku_body df sku)) = []
  end.
Proof.
  destruct (process_sku_shape df sku)
    as [[Hsel ->] | [(e & _ & ->) | [(series & e & _ & -> & _)
        | (series & last & d & _ & _ & Hsku & ->)]]]; cbn [outcome snd trace fst].
  - split; [exact Hsel | reflexivity].
  - reflexivity.
  - reflexivity.
  - exists d. rewrite submit_if_needed_eq.
    destruct (Qlt_le_dec 0 (d_procurement_qty d)); cbn; repeat split; exact Hsku.
Qed.

Lemma sku_loop_summary (df : list row) (skus : list cell) :
  (forall sku, In sku skus -> select df "SKU" sku <> []) ->
  forall acc t summary,
    skus_loop df skus acc = (t, Ok summary) ->
    summary = acc ++ map (summary_of_decision round2) (decisions_of t) /\
    map d_sku (decisions_of t) = skus.
Proof.
  induction skus as [| sku skus IH]; intros Hsel acc t summary Hrun.
  - cbn in Hrun. injection Hrun as <- <-. cbn. now rewrite app_nil_r.
  - cbn [sku_loop] in Hrun.
    pose proof (process_sku_decisions df sku) as Hd.
    rewrite (run_eta (sku_body df sku)) in Hrun.
    destruct (outcome (sku_body df sku)) as [[s |] | e].
    + destruct Hd as (d & Hd & Hsku & ->).
      rewrite bind_pair_ok in Hrun. injection Hrun as <- Hout.
      destruct (IH (fun s Hs => Hsel s (or_intror Hs)) _ _ _
                   (eq_trans (run_eta _) (f_equal2 pair eq_refl Hout)))
        as [-> Hskus].
      rewrite decisions_of_app, Hd, map_app, <- app_assoc. cbn.
      now rewrite Hskus, Hsku.
    + destruct Hd as [Hnil _]. exfalso. apply (Hsel sku); [now left | exact Hnil].
    + discriminate.
Qed.

(** X13. A run of [main] that returns the summary has appended exactly one
    dictionary per logged decision, in order, holding the decision's values
    (forecast, adjusted stock and quantity rounded); and there is one
    decision per distinct SKU of the valid rows, in order of first
    appearance. *)
Theorem X13_summary_matches_decisions
    (rows : list row) (t : list event) (summary : list summary_row) :
  run_main rows = (t, Ok (Some summary)) ->
  summary = map (summary_of_decision round2) (decisions_of t) /\
  map d_sku (decisions_of t)
  = unique (map (fun r => col r "SKU") (valid_rows (load rows))) /\
  map s_sku summary
  = unique (map (fun r => col r "SKU") (valid_rows (load rows))).
Proof.
  rewrite main_run_eq.
  destruct (valid_rows (load rows)) as [| r df'] eqn:Hdf; [discriminate |].
  cbv zeta. remember (r :: df') as df eqn:Edf.
  remember (unique (map (fun r => col r "SKU") df)) as skus eqn:Eskus.
  intros H. injection H as <- Hout.
  destruct (outcome (skus_loop df skus [])) as [s |] eqn:Hloop; [| discriminate].
  injection Hout as ->.
  assert (Hsel : forall sku, In sku skus -> select df "SKU" sku <> []).
  { intros sku Hin. subst skus. now apply select_nonempty, In_unique. }
  destruct (sku_loop_summary df skus Hsel [] _ _
              (eq_trans (run_eta _) (f_equal2 pair eq_refl Hloop)))
    as [Hsum Hskus].
  destruct (validation_log_views (load rows)) as (Hv & _).
  rewrite decisions_of_app, Hv.
  change (EvProcessingSkus skus :: trace (skus_loop df skus []))
    with ([EvProcessingSkus skus] ++ trace (skus_loop df skus [])).
  rewrite decisions_of_app. cbn [app decisions_of omap].
  fold (decisions_of (trace (skus_loop df skus []))).
  split; [exact Hsum | split; [exact Hskus |]].
  rewrite Hsum. cbn [app]. rewrite map_map. exact Hskus.
Qed.

(** X14. Whatever the input, [main] never logs "No data for SKU", never
    logs a failed API call or "All retries failed", and never sleeps. *)
Theorem X14_run_never_skips_fails_or_sleeps (rows : list row) :
  Forall (fun e => is_failure_event e = false) (trace (run_main rows)).
Proof.
  rewrite main_run_eq.
  destruct (validation_log_views (load rows)) as (_ & _ & _ & Hlog).
  destruct (valid_rows (load rows)) as [| r df'] eqn:Hdf; cbn [trace fst].
  - apply Forall_app. split; [exact Hlog | now repeat constructor].
  - apply Forall_app. split; [exact Hlog |]. constructor; [reflexivity |].
    apply sku_loop_trace_ind.
    + constructor.
    + intros t1 t2 H1 H2. apply Forall_app. now split.
    + intros sku Hin.
      pose proof (select_nonempty _ _ (In_unique _ _ Hin)) as Hne.
      destruct (process_sku_shape (r :: df') sku)
        as [[Hsel _] | [(e & _ & ->) | [(series & e & _ & -> & _)
            | (series & last & d & _ & _ & _ & ->)]]]; cbn [trace fst].
      * contradiction.
      * constructor.
      * now repeat constructor.
      * rewrite submit_if_needed_eq.
        destruct (Qlt_le_dec 0 (d_procurement_qty d)); now repeat constructor.
Qed.

(** X15. In every run of [main], finished or aborted, the orders attempted
    are the logged decisions with a quantity greater than 0, in order, each
    with the decided SKU and quantity and each attempted once. *)
Theorem X15_orders_are_the_positive_decisions (rows : list row) :
  let t := trace (run_main rows) in
  map order_key (payloads_of t)
  = map decision_key (List.filter positive_quantity (decisions_of t)) /\
  attempts_of t = map (fun _ => 1%Z) (payloads_of t).
Proof.
  cbv zeta. rewrite main_run_eq.
  destruct (validation_log_views (load rows)) as (Hd & Hp & Ha & _).
  destruct (valid_rows (load rows)) as [| r df'] eqn:Hdf; cbn [trace fst].
  - rewrite decisions_of_app, payloads_of_app, attempts_of_app, Hd, Hp, Ha.
    split; reflexivity.
  - rewrite decisions_of_app, payloads_of_app, attempts_of_app, Hd, Hp, Ha.
    cbn [app]. change (EvProcessingSkus ?s :: ?t) with ([EvProcessingSkus s] ++ t).
    rewrite decisions_of_app, payloads_of_app, attempts_of_app. cbn [app].
    apply (sku_loop_trace_ind
             (fun t => map order_key (payloads_of t)
                       = map decision_key (List.filter positive_quantity (decisions_of t)) /\
                       attempts_of t = map (fun _ => 1%Z) (payloads_of t))).
    + split; reflexivity.
    + intros t1 t2 [H1 H1'] [H2 H2'].
      rewrite decisions_of_app, payloads_of_app, attempts_of_app,
        List.filter_app, !map_app, H1, H1', H2, H2'. split; reflexivity.
    + intros sku _.
      destruct (process_sku_shape (r :: df') sku)
        as [[_ ->] | [(e & _ & ->) | [(series & e & _ & -> & _)
            | (series & last & d & _ & _ & Hsku & ->)]]]; cbn [trace fst];
        try (split; reflexivity).
      rewrite submit_if_needed_eq. unfold positive_quantity, order_key, decision_key.
      destruct (Qlt_le_dec 0 (d_procurement_qty d)) as [Hq | Hq] eqn:Hdec; cbn.
      * unfold positive_quantity. rewrite Hdec. cbn. rewrite Hsku. split; reflexivity.
      * unfold positive_quantity. rewrite Hdec. split; reflexivity.
Qed.







Lemma sku_loop_decided_prefix (df : list row) (skus : list cell) :
  (forall sku, In sku skus -> select df "SKU" sku <> []) ->
  forall acc, exists rest,
    skus = map d_sku (decisions_of (trace (skus_loop df skus acc))) ++ rest.
Proof.
  induction skus as [| sku skus IH]; intros Hsel acc.
  - now exists [].
  - cbn [sku_loop]. rewrite trace_bind, decisions_of_app, map_app.
    pose proof (process_sku_decisions df sku) as Hd.
    destruct (outcome (sku_body df sku)) as [[s |] | e].
    + destruct Hd as (d & -> & Hsku & _). cbn [map app].
      destruct (IH (fun s Hs => Hsel s (or_intror Hs))
                   (acc ++ [s])) as (rest & Hrest).
      exists rest. rewrite Hsku. f_equal. exact Hrest.
    + destruct Hd as [Hnil _]. exfalso. apply (Hsel sku); [now left | exact Hnil].
    + rewrite Hd. cbn. now exists (sku :: skus).
Qed.

(** X18. In every run of [main], finished or aborted, the SKUs of the
    logged decisions are an initial part of the distinct SKUs of the valid
    rows in order of first appearance; so no SKU gets two decisions. *)
Theorem X18_one_decision_per_sku (rows : list row) :
  let decided := map d_sku (decisions_of (trace (run_main rows))) in
  (exists rest,
      unique (map (fun r => col r "SKU") (valid_rows (load rows))) = decided ++ rest) /\
  List.NoDup decided.
Proof.
  cbv zeta.
  assert (Hpre : exists rest,
      unique (map (fun r => col r "SKU") (valid_rows (load rows)))
      = map d_sku (decisions_of (trace (run_main rows))) ++ rest).
  { rewrite main_run_eq.
    destruct (validation_log_views (load rows)) as (Hv & _).
    destruct (valid_rows (load rows)) as [| r df']; cbn [trace fst].
    - rewrite decisions_of_app, Hv. now exists [].
    - cbv zeta. remember (r :: df') as df eqn:Edf.
      remember (unique (map (fun r => col r "SKU") df)) as skus eqn:Eskus.
      change (EvProcessingSkus skus :: trace (skus_loop df skus []))
        with ([EvProcessingSkus skus] ++ trace (skus_loop df skus [])).
      rewrite !decisions_of_app, Hv. cbn [app].
      change (decisions_of [EvProcessingSkus skus]) with (@nil decision).
      cbn [app]. apply sku_loop_decided_prefix.
      intros sku Hin. subst skus. now apply select_nonempty, In_unique. }
  split; [exact Hpre |].
  destruct Hpre as (rest & Hrest).
  pose proof (unique_NoDup (map (fun r => col r "SKU") (valid_rows (load rows)))) as Hnd.
  rewrite Hrest in Hnd. now apply List.NoDup_app_remove_r in Hnd.
Qed.

(** X19. A malformed row does not reach the decisions: a batch with such a
    row and the batch without it give the same result, the same decisions
    and the same orders. *)
Theorem X19_malformed_row_changes_no_decision (before after : list row) (bad : row) :
  malformed float_of_str bad ->
  let with_bad := run_main (before ++ bad :: after) in
  let without := run_main (before ++ after) in
  outcome with_bad = outcome without /\
  decisions_of (trace with_bad) = decisions_of (trace without) /\
  payloads_of (trace with_bad) = payloads_of (trace without).
Proof.
  intros Hbad. cbv zeta.
  assert (Hvalid : valid_rows (load (before ++ bad :: after))
                   = valid_rows (load (before ++ after))).
  { destruct (load_filter float_of_str (before ++ bad :: after)) as [-> _].
    destruct (load_filter float_of_str (before ++ after)) as [-> _].
    rewrite !List.filter_app. cbn [List.filter].
    now rewrite (proj2 (row_ok_false_iff_malformed float_of_str bad) Hbad). }
  rewrite !main_run_eq, Hvalid.
  destruct (validation_log_views (load (before ++ bad :: after))) as (Hd1 & Hp1 & _).
  destruct (validation_log_views (load (before ++ after))) as (Hd2 & Hp2 & _).
  destruct (valid_rows (load (before ++ after))) as [| r df']; cbn [trace outcome fst snd];
    rewrite !decisions_of_app, !payloads_of_app, Hd1, Hd2, Hp1, Hp2;
    repeat split; reflexivity.
Qed.

End MainFurther.

Lemma X13_summary_matches_decisions_witness :
  let m := main decimal_float iso_datetime (constant_forecast 100) plain_format
                no_rounding [row_a1; row_b2] in
  let summary := match outcome m with Ok (Some s) => s | _ => [] end in
  m = (trace m, Ok (Some summary)) /\
  summary = map (summary_of_decision no_rounding) (decisions_of (trace m)) /\
  length summary = 2%nat.
Proof.
  cbv zeta.
  assert (Hrun :
    main decimal_float iso_datetime (constant_forecast 100) plain_format
         no_rounding [row_a1; row_b2]
    = (trace (main decimal_float iso_datetime (constant_forecast 100) plain_format
                   no_rounding [row_a1; row_b2]),
       Ok (Some match outcome (main decimal_float iso_datetime (constant_forecast 100)
                                    plain_format no_rounding [row_a1; row_b2])
                with Ok (Some s) => s | _ => [] end)))
    by (vm_compute; reflexivity).
  split; [exact Hrun |].
  split; [| vm_compute; reflexivity].
  exact (proj1 (X13_summary_matches_decisions decimal_float iso_datetime
                  (constant_forecast 100) plain_format no_rounding
                  [row_a1; row_b2] _ _ Hrun)).
Defined.



Lemma X19_malformed_row_changes_no_decision_witness :
  malformed decimal_float row_missing_soh /\
  decisions_of (trace (main decimal_float iso_datetime (constant_forecast 100)
                            plain_format no_rounding
                            ([row_a1] ++ row_missing_soh :: [row_b2])))
  = decisions_of (trace (main decimal_float iso_datetime (constant_forecast 100)
                              plain_format no_rounding ([row_a1] ++ [row_b2]))).
Proof.
  assert (Hbad : malformed decimal_float row_missing_soh).
  { left. exists "SOH". split; [simpl; tauto |].
    right. right. vm_compute. reflexivity. }
  split; [exact Hbad |].
  exact (proj1 (proj2 (X19_malformed_row_changes_no_decision decimal_float iso_datetime
                         (constant_forecast 100) plain_format no_rounding
                         [row_a1] [row_b2] row_missing_soh Hbad))).
Defined.
